(** * A shallow embedding of the Mixpanel client ([mixpanel.go])

    The client is a thin binding over a remote HTTP endpoint: every public
    method builds a [map[string]interface{}], hands it to [sendPost], which
    wraps it in a one-element slice, serialises it with [encoding/json],
    POSTs it with [net/http] and looks at the answer.

    Go values are modelled as follows.
    - [string] and [[]byte] are [string] (a list of bytes); the [nil] slice
      is the empty string, and [string(body)] is the identity.
    - [int64] is [Z].
    - [interface{}] is the inductive type [any].
    - [map[string]interface{}] is [option (gmap string any)]: [None] is the
      [nil] map, which [range] treats as empty.
    - a pointer that may be [nil] is an [option]; dereferencing [None]
      panics.
    - [error] is [option error]: [None] is [nil].
    - the packages the client calls into ([encoding/json], [net/http],
      [io/ioutil]) are not part of the repository: the serialiser and the
      package-default HTTP client are variables of the development, and
      every call into them is recorded, in order, in a trace. *)

From stdpp Require Import gmap strings list fin_maps pretty sorting.

Local Set Warnings "-register-all".

(** ** Values *)

(** What the client reads of a [time.Time]: the seconds since the Unix
    epoch that [Unix()] returns. *)
Record Time := mkTime { unixSec : Z }.

Definition Unix (t : Time) : Z := unixSec t.

(** [time.Time{}], January 1 of year 1, 00:00:00 UTC. *)
Definition zeroTime : Time := mkTime (-62135596800).

(** A [*time.Time].  [IgnoreTime] is the package variable
    [var IgnoreTime *time.Time = &time.Time{}]; the code compares against it
    by pointer identity, so it is a pointer of its own, distinct from every
    pointer a caller can allocate ([ptrTime]). *)
Inductive TimePtr :=
  | nilTime
  | IgnoreTime
  | ptrTime (t : Time).

(** The time a non-nil pointer points at. *)
Definition pointee (p : TimePtr) : option Time :=
  match p with
  | nilTime => None
  | IgnoreTime => Some zeroTime
  | ptrTime t => Some t
  end.

(** [interface{}]: the dynamic values that reach the serialiser.  [AChan]
    stands for a value of a type [encoding/json] refuses (a channel). *)
Inductive any : Type :=
  | ANil
  | ABool (b : bool)
  | AInt64 (z : Z)
  | AString (s : string)
  | ASlice (l : list any)
  | AMap (m : option (gmap string any))
  | AChan.

(** ** [net/http] *)

(** An [io.ReadCloser] seen through what reading it to the end yields: the
    bytes read and the error that stopped the read, if any. *)
Record ReadCloser := mkBody { rc_data : string; rc_err : option string }.

Record http_Response := mkResponse {
  resp_StatusCode : Z;
  resp_Body : ReadCloser
}.

Record http_Request := mkRequest {
  req_Method : string;
  req_URL : string;
  req_ContentType : string;
  req_Body : string
}.

(** An [http.Client], seen through the round trip it performs: the
    response, if any, and the transport error, if any. *)
Record http_Client := mkClient {
  Do : http_Request → option http_Response * option string
}.

(** ** Errors *)

Inductive error :=
  | MixpanelError (URL : string) (Err : error)
  | ErrTrackFailed (Body : string) (Resp : option http_Response)
  | errorString (s : string).

Fixpoint Error (err : error) : string :=
  match err with
  | MixpanelError _ Err => "mixpanel: " +:+ Error Err
  | ErrTrackFailed Body _ =>
      "Mixpanel did not return 1 when tracking: " +:+ Body
  | errorString s => s
  end.

(** The method [Cause] of a [MixpanelError]. *)
Definition Cause (err : error) : option error :=
  match err with
  | MixpanelError _ Err => Some Err
  | _ => None
  end.

(** ** The caller's data *)

Record mixpanel := mkMixpanel {
  Client : option http_Client;
  Token : string;
  ApiURL : string
}.

Module Event.
Record t := mk {
  IP : string;
  Timestamp : TimePtr;
  Properties : option (gmap string any)
}.
End Event.

Module Update.
Record t := mk {
  IP : string;
  Timestamp : TimePtr;
  Operation : string;
  Properties : option (gmap string any)
}.
End Update.

(** ** Effects: a trace of calls, and panics *)

Inductive call :=
  | call_Marshal (v : any)
  | call_Post (req : http_Request)
  | call_ReadAll (rc : ReadCloser)
  | call_Close (rc : ReadCloser).

(** A computation yields the calls it made and, unless it panicked, a
    value. *)
Definition M (A : Type) : Type := list call * option A.

#[global] Instance M_ret : MRet M := λ A a, ([], Some a).

#[global] Instance M_bind : MBind M := λ A B f m,
  match m with
  | (tr, None) => (tr, None)
  | (tr, Some a) => let '(tr', b) := f a in (tr ++ tr', b)
  end.

Definition panic {A} : M A := ([], None).

Definition emit {A} (c : call) (a : A) : M A := ([c], Some a).

(** An expression statement: the value is computed and dropped. *)
Definition discard {A} (a : A) : M () := mret ().

(** [p.f] on a pointer [p]: a nil pointer dereference panics. *)
Definition load {A} (p : option A) : M A :=
  match p with
  | Some a => mret a
  | None => panic
  end.

(** [for key, value := range src { dst[key] = value }]. *)
Definition range_assign (src : option (gmap string any))
    (dst : gmap string any) : gmap string any :=
  match src with
  | None => dst
  | Some src => map_fold (λ key value dst, <[key:=value]> dst) dst src
  end.

(** The same loop when the runtime visits the entries in the order
    [entries]: Go leaves the iteration order of a map unspecified. *)
Definition range_assign_in (entries : list (string * any))
    (dst : gmap string any) : gmap string any :=
  foldl (λ dst '(key, value), <[key:=value]> dst) dst entries.

(** What a trace shows of the values serialised and the requests sent. *)
Definition marshalled (tr : list call) : list any :=
  omap (λ c, match c with call_Marshal v => Some v | _ => None end) tr.

Definition posted (tr : list call) : list http_Request :=
  omap (λ c, match c with call_Post r => Some r | _ => None end) tr.

(** ** The public methods as data *)

(** A call of one of the six methods of the [Mixpanel] interface, on an
    event or update the caller has built. *)
Inductive operation :=
  | op_Track (distinctId eventName : string) (e : Event.t)
  | op_UpdateUser (distinctId : string) (u : Update.t)
  | op_UnionUser (userID : string) (u : Update.t)
  | op_UpdateGroup (groupKey groupId : string) (u : Update.t)
  | op_UnionGroup (groupKey groupId : string) (u : Update.t)
  | op_Alias (distinctId newId : string).

(** The sub-path each operation submits to, as the specification of the
    external interface lists them; [invoke_sendPost] checks the table
    against the methods. *)
Definition subPath (op : operation) : string :=
  match op with
  | op_Track _ _ _ => "track"
  | op_UpdateUser _ _ => "engage"
  | op_UnionUser _ _ => "engage#profile-union"
  | op_UpdateGroup _ _ _ => "groups"
  | op_UnionGroup _ _ _ => "groups#group-union"
  | op_Alias _ _ => "track"
  end.

(** [needle] occurs in [s]. *)
Definition contains (s needle : string) : Prop :=
  ∃ before after, s = before +:+ needle +:+ after.

(** ** Stand-ins for the outside world, for the examples

    A serialiser for [any] that follows [encoding/json] on the values of
    the examples: maps become objects with their keys sorted, slices become
    arrays, a nil map is [null], and a channel is refused.  Strings are
    quoted with the double quote and the backslash escaped; the other
    escapes of [encoding/json] are left out. *)

Fixpoint encodable (v : any) : bool :=
  match v with
  | ASlice l => forallb encodable l
  | AMap (Some m) => map_fold (λ _ x acc, encodable x && acc) true m
  | AChan => false
  | _ => true
  end.

Definition dquote : Ascii.ascii := Ascii.ascii_of_nat 34.
Definition backslash : Ascii.ascii := Ascii.ascii_of_nat 92.

Fixpoint escape (s : string) : string :=
  match s with
  | EmptyString => EmptyString
  | String c s =>
      if decide (c = dquote ∨ c = backslash)
      then String backslash (String c (escape s))
      else String c (escape s)
  end.

Definition quote (s : string) : string :=
  String dquote (escape s +:+ String dquote "").

Fixpoint join (sep : string) (l : list string) : string :=
  match l with
  | [] => ""
  | [x] => x
  | x :: l => x +:+ sep +:+ join sep l
  end.

Definition key_le (a b : string * string) : Prop := String.leb a.1 b.1 = true.

#[global] Instance key_le_dec a b : Decision (key_le a b).
Proof. unfold key_le. apply _. Defined.

Fixpoint render (v : any) : string :=
  match v with
  | ANil => "null"
  | ABool b => if b then "true" else "false"
  | AInt64 z => pretty z
  | AString s => quote s
  | ASlice l => "[" +:+ join "," (map render l) +:+ "]"
  | AMap None => "null"
  | AMap (Some m) =>
      "{" +:+ join "," ((λ kv, quote kv.1 +:+ ":" +:+ kv.2)
                          <$> merge_sort key_le (map_to_list (render <$> m)))
          +:+ "}"
  | AChan => ""
  end.

Definition json_reference (v : any) : string * option error :=
  if encodable v then (render v, None)
  else ("", Some (errorString "json: unsupported type: chan int")).

(** A server that answers every request with the same status and body. *)
Definition client_replying (status : Z) (body : string) : http_Client :=
  mkClient (λ _, (Some (mkResponse status (mkBody body None)), None)).

(** A transport on which every round trip fails and yields no response. *)
Definition client_failing (msg : string) : http_Client :=
  mkClient (λ _, (None, Some msg)).

(** The inputs of the examples. *)
Definition sample_client : mixpanel :=
  mkMixpanel None "tok" "https://api.mixpanel.com".

Definition sample_event : Event.t :=
  Event.mk "10.0.0.1" (ptrTime (mkTime 1700000000))
    (Some {[ "plan" := AString "pro" ]}).

(** An event whose caller supplies its own "token". *)
Definition shadowing_event : Event.t :=
  Event.mk "" nilTime (Some {[ "token" := AString "mine" ]}).

(** An event with a property [encoding/json] cannot serialise. *)
Definition chan_event : Event.t :=
  Event.mk "" nilTime (Some {[ "ch" := AChan ]}).

Definition sample_update : Update.t :=
  Update.mk "" IgnoreTime "$set" (Some {[ "plan" := AString "pro" ]}).

Definition chan_update : Update.t :=
  Update.mk "" nilTime "$set" (Some {[ "ch" := AChan ]}).

(** An update whose operation is named like the time field. *)
Definition time_named_update : Update.t :=
  Update.mk "" IgnoreTime "$time" (Some {[ "plan" := AString "pro" ]}).

(** ** The client *)

Section Client.

(** [json.Marshal]: the bytes and the error. *)
Variable json_Marshal : any → string * option error.

(** [http.DefaultClient]. *)
Variable http_DefaultClient : http_Client.

Definition Marshal (v : any) : M (string * option error) :=
  emit (call_Marshal v) (json_Marshal v).

(** [http.Post(url, contentType, body)] is
    [DefaultClient.Post(url, contentType, body)]. *)
Definition http_Post (url contentType body : string)
    : M (option http_Response * option error) :=
  let req := mkRequest "POST" url contentType body in
  let '(resp, err) := Do http_DefaultClient req in
  emit (call_Post req) (resp, errorString <$> err).

Definition ioutil_ReadAll (rc : ReadCloser) : M (string * option error) :=
  emit (call_ReadAll rc) (rc_data rc, errorString <$> rc_err rc).

Definition Close (rc : ReadCloser) : M () := emit (call_Close rc) ().

Definition sendPost (m : mixpanel) (eventType : string) (params : any)
    : M (option error) :=
  (* params needs to be an array *)
  let params := ASlice [params] in
  let url := ApiURL m +:+ "/" +:+ eventType in
  let wrapErr (err : error) : option error :=
    Some (MixpanelError url err) in
  '(postBody, err) ← Marshal params;
  _ ← match err with
      | Some err => discard (wrapErr (ErrTrackFailed (Error err) None))
      | None => mret ()
      end;
  let responseBody := postBody in
  '(resp, err) ← http_Post url "application/json" responseBody;
  _ ← match err with
      | Some err => discard (wrapErr (ErrTrackFailed (Error err) resp))
      | None => mret ()
      end;
  (* defer resp.Body.Close() *)
  r ← load resp;
  ret ← ('(body, err) ← ioutil_ReadAll (resp_Body r);
         _ ← match err with
             | Some err =>
                 discard (wrapErr (ErrTrackFailed (Error err) resp))
             | None => mret ()
             end;
         let sb := body in
         if decide (sb ≠ "1")
         then mret (wrapErr (ErrTrackFailed "response not 1" resp))
         else mret None);
  _ ← Close (resp_Body r);
  mret ret.

Definition Alias (m : mixpanel) (distinctId newId : string)
    : M (option error) :=
  let props : gmap string any :=
    {[ "token" := AString (Token m);
       "distinct_id" := AString distinctId;
       "alias" := AString newId ]} in
  let params : gmap string any :=
    {[ "event" := AString "$create_alias";
       "properties" := AMap (Some props) ]} in
  sendPost m "track" (AMap (Some params)).

Definition Track (m : mixpanel) (distinctId eventName : string)
    (e : option Event.t) : M (option error) :=
  let props : gmap string any :=
    {[ "token" := AString (Token m);
       "distinct_id" := AString distinctId ]} in
  e ← load e;
  let props :=
    if decide (Event.IP e ≠ "")
    then <["ip" := AString (Event.IP e)]> props
    else props in
  let props :=
    match pointee (Event.Timestamp e) with
    | Some t => <["time" := AInt64 (Unix t)]> props
    | None => props
    end in
  let props := range_assign (Event.Properties e) props in
  let params : gmap string any :=
    {[ "event" := AString eventName;
       "properties" := AMap (Some props) ]} in
  sendPost m "track" (AMap (Some params)).

Definition UpdateUser (m : mixpanel) (distinctId : string)
    (u : option Update.t) : M (option error) :=
  let params : gmap string any :=
    {[ "$token" := AString (Token m);
       "$distinct_id" := AString distinctId ]} in
  u ← load u;
  let params :=
    if decide (Update.IP u ≠ "")
    then <["$ip" := AString (Update.IP u)]> params
    else params in
  let params :=
    match Update.Timestamp u with
    | IgnoreTime => <["$ignore_time" := ABool true]> params
    | ptrTime t => <["$time" := AInt64 (Unix t)]> params
    | nilTime => params
    end in
  let params :=
    <[Update.Operation u := AMap (Update.Properties u)]> params in
  sendPost m "engage" (AMap (Some params)).

Definition UnionUser (m : mixpanel) (userID : string)
    (u : option Update.t) : M (option error) :=
  let params : gmap string any :=
    {[ "$token" := AString (Token m);
       "$distinct_id" := AString userID ]} in
  u ← load u;
  let params :=
    <[Update.Operation u := AMap (Update.Properties u)]> params in
  sendPost m "engage#profile-union" (AMap (Some params)).

Definition UpdateGroup (m : mixpanel) (groupKey groupId : string)
    (u : option Update.t) : M (option error) :=
  let params : gmap string any :=
    {[ "$token" := AString (Token m);
       "$group_id" := AString groupId;
       "$group_key" := AString groupKey ]} in
  u ← load u;
  let params :=
    <[Update.Operation u := AMap (Update.Properties u)]> params in
  sendPost m "groups" (AMap (Some params)).

Definition UnionGroup (m : mixpanel) (groupKey groupId : string)
    (u : option Update.t) : M (option error) :=
  let params : gmap string any :=
    {[ "$token" := AString (Token m);
       "$group_id" := AString groupId;
       "$group_key" := AString groupKey ]} in
  u ← load u;
  let params :=
    <[Update.Operation u := AMap (Update.Properties u)]> params in
  sendPost m "groups#group-union" (AMap (Some params)).

Definition NewFromClient (c : option http_Client) (token apiURL : string)
    : mixpanel :=
  let apiURL :=
    if decide (apiURL = "") then "https://api.mixpanel.com" else apiURL in
  {| Client := c; Token := token; ApiURL := apiURL |}.

Definition New (token apiURL : string) : mixpanel :=
  NewFromClient (Some http_DefaultClient) token apiURL.

(** A method call on the client [m]. *)
Definition invoke (m : mixpanel) (op : operation) : M (option error) :=
  match op with
  | op_Track distinctId eventName e =>
      Track m distinctId eventName (Some e)
  | op_UpdateUser distinctId u => UpdateUser m distinctId (Some u)
  | op_UnionUser userID u => UnionUser m userID (Some u)
  | op_UpdateGroup groupKey groupId u =>
      UpdateGroup m groupKey groupId (Some u)
  | op_UnionGroup groupKey groupId u =>
      UnionGroup m groupKey groupId (Some u)
  | op_Alias distinctId newId => Alias m distinctId newId
  end.

(** The transport answers every request with the response [r], with or
    without an error next to it. *)
Definition delivers (r : http_Response) : Prop :=
  ∀ req, (Do http_DefaultClient req).1 = Some r.

(** The transport answers no request: every round trip fails without a
    response. *)
Definition unreachable : Prop :=
  ∀ req, (Do http_DefaultClient req).1 = None.

(** The request object an [UpdateUser] call submits carries the time
    fields its [Timestamp] asks for: the ignore-time flag and no time for
    the sentinel, neither for [nil], the epoch seconds otherwise. *)
Definition UpdateUser_time_fields (m : mixpanel) (distinctId : string)
    (u : Update.t) : Prop :=
  ∃ params : gmap string any,
    marshalled (UpdateUser m distinctId (Some u)).1
      = [ASlice [AMap (Some params)]] ∧
    match Update.Timestamp u with
    | IgnoreTime =>
        params !! "$ignore_time" = Some (ABool true) ∧
        params !! "$time" = None
    | nilTime =>
        params !! "$ignore_time" = None ∧ params !! "$time" = None
    | ptrTime t => params !! "$time" = Some (AInt64 (Unix t))
    end.

(** ** The submission path *)

(** [sendPost] in closed form: one serialisation, one POST, and then
    either a panic on the missing response or a verdict on its body. *)
Lemma sendPost_run m eventType params :
  sendPost m eventType params =
    let url := ApiURL m +:+ "/" +:+ eventType in
    let v := ASlice [params] in
    let req := mkRequest "POST" url "application/json" (json_Marshal v).1 in
    match (Do http_DefaultClient req).1 with
    | None => ([call_Marshal v; call_Post req], None)
    | Some r =>
        ([call_Marshal v; call_Post req;
          call_ReadAll (resp_Body r); call_Close (resp_Body r)],
         Some (if decide (rc_data (resp_Body r) ≠ "1")
               then Some (MixpanelError url
                            (ErrTrackFailed "response not 1" (Some r)))
               else None))
    end.
Proof.
  unfold sendPost, Marshal, http_Post, ioutil_ReadAll, Close.
  cbn zeta.
  destruct (json_Marshal (ASlice [params])) as [postBody err].
  cbn [fst mbind M_bind emit].
  destruct (Do http_DefaultClient _) as [resp err'].
  destruct err, err', resp as [r|]; cbn; try reflexivity;
    destruct (rc_err (resp_Body r)); cbn; case_decide; reflexivity.
Qed.

Lemma load_Some_bind {A B} (a : A) (f : A → M B) : load (Some a) ≫= f = f a.
Proof. unfold load. cbn. by destruct (f a). Qed.

Lemma sendPost_marshalled m eventType params :
  marshalled (sendPost m eventType params).1 = [ASlice [params]].
Proof.
  rewrite sendPost_run. cbn zeta.
  by destruct (Do http_DefaultClient _).1.
Qed.

Lemma sendPost_posted m eventType params :
  posted (sendPost m eventType params).1 =
    [mkRequest "POST" (ApiURL m +:+ "/" +:+ eventType) "application/json"
       (json_Marshal (ASlice [params])).1].
Proof.
  rewrite sendPost_run. cbn zeta.
  by destruct (Do http_DefaultClient _).1.
Qed.

(** Every method ends in [sendPost], on the sub-path listed for it. *)
Lemma invoke_sendPost m op :
  ∃ params, invoke m op = sendPost m (subPath op) params.
Proof.
  destruct op; unfold invoke, Track, UpdateUser, UnionUser, UpdateGroup,
    UnionGroup, Alias; cbn zeta; rewrite ?load_Some_bind; eauto.
Qed.

(** A call whose serialisation succeeds sends the serialised one-element
    slice that holds its request object. *)
Lemma invoke_envelope m op :
  ∃ params,
    marshalled (invoke m op).1 = [ASlice [params]] ∧
    req_Body <$> posted (invoke m op).1
      = [(json_Marshal (ASlice [params])).1].
Proof.
  destruct (invoke_sendPost m op) as [params ->]. exists params.
  by rewrite sendPost_marshalled, sendPost_posted.
Qed.

(** A failed serialisation does not stop the call: the POST goes out with
    the bytes [json.Marshal] returned next to its error. *)
Lemma sendPost_after_Marshal_error m eventType params body err :
  json_Marshal (ASlice [params]) = (body, Some err) →
  req_Body <$> posted (sendPost m eventType params).1 = [body].
Proof. intros H. by rewrite sendPost_posted, H. Qed.

(** A round trip that fails without a response makes the call panic on
    [resp.Body]: no error is returned. *)
Lemma invoke_unreachable m op : unreachable → (invoke m op).2 = None.
Proof.
  intros H. destruct (invoke_sendPost m op) as [params ->].
  rewrite sendPost_run. cbn zeta. by rewrite H.
Qed.

(** ** The verdict on the response *)

(** C3: for each of the six public operations, when the transport
    delivers a response whose body is exactly the one character 1, the
    operation returns the nil error. *)
Theorem body_1_returns_nil m op r :
  delivers r → rc_data (resp_Body r) = "1" → (invoke m op).2 = Some None.
Proof.
  intros Hr Hbody. destruct (invoke_sendPost m op) as [params ->].
  rewrite sendPost_run. cbn zeta. rewrite Hr, Hbody. by case_decide.
Qed.

(** C4: for every operation, when the transport delivers a response whose
    body is any text other than 1, whatever its status code, the operation
    returns a [MixpanelError] that records the URL that was posted to,
    base URL, slash, sub-path, and wraps an [ErrTrackFailed] whose message
    contains the text "response not 1". *)
Theorem body_not_1_returns_error m op r :
  delivers r → rc_data (resp_Body r) ≠ "1" →
  let url := ApiURL m +:+ "/" +:+ subPath op in
  ∃ inner,
    (invoke m op).2 = Some (Some (MixpanelError url inner)) ∧
    inner = ErrTrackFailed "response not 1" (Some r) ∧
    contains (Error inner) "response not 1" ∧
    req_URL <$> posted (invoke m op).1 = [url].
Proof.
  intros Hr Hbody url. exists (ErrTrackFailed "response not 1" (Some r)).
  destruct (invoke_sendPost m op) as [params ->].
  rewrite sendPost_posted. rewrite sendPost_run. cbn zeta. rewrite Hr.
  case_decide; [|done]. repeat split.
  by exists "Mixpanel did not return 1 when tracking: ", "".
Qed.

(** ** The stored HTTP client *)

(** C10: two clients built by [NewFromClient] from the same token and URL
    but different [http.Client]s behave alike on every operation, trace
    and result: the submission path never reads the [Client] field and
    goes through the package-default client. *)
Theorem stored_Client_is_ignored c1 c2 token apiURL op :
  invoke (NewFromClient c1 token apiURL) op
    = invoke (NewFromClient c2 token apiURL) op.
Proof. by destruct op. Qed.

(** The field [Client] can be replaced at will. *)
Lemma Client_field_unused m c op :
  invoke m op = invoke (mkMixpanel c (Token m) (ApiURL m)) op.
Proof. by destruct op. Qed.

(** ** The request objects *)

(** The [range] loop is a left-biased union, whatever the order in which
    the keys are visited. *)
Lemma range_assign_union (src dst : gmap string any) :
  range_assign (Some src) dst = src ∪ dst.
Proof.
  unfold range_assign.
  apply (map_fold_weak_ind (λ r (m : gmap string any), r = m ∪ dst)).
  - by rewrite (left_id_L ∅ (∪)).
  - intros i x m r _ ->. by rewrite insert_union_l.
Qed.

(** The keys [Track] sets before it merges the custom properties. *)
Lemma Track_marshalled m distinctId eventName e :
  ∃ reserved : gmap string any,
    marshalled (Track m distinctId eventName (Some e)).1
      = [ASlice [AMap (Some
           {[ "event" := AString eventName;
              "properties" :=
                AMap (Some (range_assign (Event.Properties e) reserved)) ]})]] ∧
    reserved !! "token" = Some (AString (Token m)) ∧
    reserved !! "distinct_id" = Some (AString distinctId) ∧
    reserved !! "time" = AInt64 ∘ Unix <$> pointee (Event.Timestamp e).
Proof.
  unfold Track. cbn zeta. rewrite load_Some_bind, sendPost_marshalled.
  eexists. split; [reflexivity|].
  destruct (pointee (Event.Timestamp e)); case_decide; by simplify_map_eq.
Qed.

(** C5: when the custom [Properties] of an event hold a value under some
    key, a reserved one such as "token", "distinct_id", "ip" or "time"
    included, the properties object [Track] submits holds that custom
    value under the key: it is the custom properties laid over the
    reserved keys, which are written first. *)
Theorem Track_custom_property_wins m distinctId eventName e custom key value :
  Event.Properties e = Some custom → custom !! key = Some value →
  ∃ props reserved : gmap string any,
    marshalled (Track m distinctId eventName (Some e)).1
      = [ASlice [AMap (Some
           {[ "event" := AString eventName;
              "properties" := AMap (Some props) ]})]] ∧
    props = custom ∪ reserved ∧
    reserved !! "token" = Some (AString (Token m)) ∧
    reserved !! "distinct_id" = Some (AString distinctId) ∧
    props !! key = Some value.
Proof.
  intros Hcustom Hkey.
  destruct (Track_marshalled m distinctId eventName e)
    as (reserved & Htr & Htoken & Hid & _).
  rewrite Hcustom, range_assign_union in Htr.
  exists (custom ∪ reserved), reserved. repeat split; try done.
  by apply lookup_union_Some_l.
Qed.

(** C7: for an event with a non-nil [Timestamp] pointing at the time [T]
    and no custom property named "time", the properties object [Track]
    submits has "time" set to the epoch seconds of [T]. *)
Theorem Track_time_is_epoch_seconds m distinctId eventName e T :
  pointee (Event.Timestamp e) = Some T →
  (∀ custom, Event.Properties e = Some custom → custom !! "time" = None) →
  ∃ props : gmap string any,
    marshalled (Track m distinctId eventName (Some e)).1
      = [ASlice [AMap (Some
           {[ "event" := AString eventName;
              "properties" := AMap (Some props) ]})]] ∧
    props !! "time" = Some (AInt64 (Unix T)).
Proof.
  intros HT Hcustom.
  destruct (Track_marshalled m distinctId eventName e)
    as (reserved & Htr & _ & _ & Htime).
  eexists. split; [exact Htr|]. rewrite HT in Htime.
  destruct (Event.Properties e) as [custom|]; [|done].
  rewrite range_assign_union, lookup_union_r; eauto.
Qed.

(** C6, amended: for every [UpdateUser] call whose [Operation] is neither
    "$time" nor "$ignore_time", the submitted request object has
    "$ignore_time" set to true and no "$time" when the [Timestamp] is the
    [IgnoreTime] sentinel, neither of the two when it is nil, and "$time"
    set to the epoch seconds of the timestamp otherwise. *)
Theorem UpdateUser_time_fields_ok m distinctId u :
  Update.Operation u ≠ "$time" → Update.Operation u ≠ "$ignore_time" →
  UpdateUser_time_fields m distinctId u.
Proof.
  intros Htime Hignore. unfold UpdateUser_time_fields, UpdateUser.
  cbn zeta. rewrite load_Some_bind, sendPost_marshalled.
  eexists. split; [reflexivity|].
  destruct (Update.Timestamp u); case_decide; by simplify_map_eq.
Qed.

(** C8: the request object [UnionUser] submits has no keys but "$token",
    "$distinct_id" and the one named by [Operation], which is mapped to
    [Properties]; the token and the user id sit under their keys unless
    [Operation] names them; and the [IP] and the [Timestamp] of the update
    change nothing, neither in the calls made nor in the result. *)
Theorem UnionUser_minimal_request m userID u :
  (∃ params : gmap string any,
     marshalled (UnionUser m userID (Some u)).1
       = [ASlice [AMap (Some params)]] ∧
     dom params = {[ "$token"; "$distinct_id"; Update.Operation u ]} ∧
     params !! Update.Operation u = Some (AMap (Update.Properties u)) ∧
     (Update.Operation u ≠ "$token" →
      params !! "$token" = Some (AString (Token m))) ∧
     (Update.Operation u ≠ "$distinct_id" →
      params !! "$distinct_id" = Some (AString userID))) ∧
  (∀ ip timestamp,
     UnionUser m userID
       (Some (Update.mk ip timestamp
                (Update.Operation u) (Update.Properties u)))
     = UnionUser m userID (Some u)).
Proof.
  split; [|done].
  unfold UnionUser. cbn zeta. rewrite load_Some_bind, sendPost_marshalled.
  eexists. split; [reflexivity|]. split_and!.
  - rewrite !dom_insert_L, dom_singleton_L.
    apply set_eq. intros k. rewrite !elem_of_union, !elem_of_singleton.
    tauto.
  - by simplify_map_eq.
  - intros. by simplify_map_eq.
  - intros. by simplify_map_eq.
Qed.

(** ** What every operation does on the wire *)


(** X2: an operation panics exactly when the round trip of the request it
    posted yields no response. *)
Theorem invoke_panics_iff m op :
  (invoke m op).2 = None ↔
  ∃ req, posted (invoke m op).1 = [req] ∧
         (Do http_DefaultClient req).1 = None.
Proof.
  destruct (invoke_sendPost m op) as [params ->].
  rewrite sendPost_posted, sendPost_run. cbn zeta.
  set (req := mkRequest _ _ _ _). split.
  - intros H. exists req. split; [done|].
    by destruct (Do http_DefaultClient req).1.
  - intros (? & [= <-] & ->). done.
Qed.

(** X3: an operation returns the nil error exactly when the round trip of
    the request it posted yields a response whose body reads 1; the errors
    that the serialiser, the transport or the read report next to their
    results play no part. *)
Theorem invoke_returns_nil_iff m op :
  (invoke m op).2 = Some None ↔
  ∃ req r, posted (invoke m op).1 = [req] ∧
           (Do http_DefaultClient req).1 = Some r ∧
           rc_data (resp_Body r) = "1".
Proof.
  destruct (invoke_sendPost m op) as [params ->].
  rewrite sendPost_posted, sendPost_run. cbn zeta.
  set (req := mkRequest _ _ _ _). split.
  - destruct (Do http_DefaultClient req).1 as [r|] eqn:Hr; [|done].
    case_decide as Hbody; [done|]. intros _. by exists req, r.
  - intros (? & r & [= <-] & -> & Hbody). by case_decide.
Qed.

(** X4: the only error an operation ever returns is a [MixpanelError] for
    the URL of the operation around an [ErrTrackFailed] with the fixed text
    "response not 1" and the response received, whose body was not 1.  Its
    [Cause] is that inner error, and its message is the same whatever the
    server sent. *)
Theorem invoke_error_shape m op err :
  (invoke m op).2 = Some (Some err) →
  ∃ r,
    err = MixpanelError (ApiURL m +:+ "/" +:+ subPath op)
            (ErrTrackFailed "response not 1" (Some r)) ∧
    rc_data (resp_Body r) ≠ "1" ∧
    Cause err = Some (ErrTrackFailed "response not 1" (Some r)) ∧
    Error err
      = "mixpanel: Mixpanel did not return 1 when tracking: response not 1".
Proof.
  destruct (invoke_sendPost m op) as [params ->].
  rewrite sendPost_run. cbn zeta.
  destruct (Do http_DefaultClient _).1 as [r|]; [|done].
  case_decide; [|done]. intros [= <-]. by exists r.
Qed.

(** X5: whenever an operation returns, with or without an error, it made
    four calls in this order: the serialisation, the POST, the read of the
    body of the response received, and the close of that body. *)
Theorem invoke_returned_closes_body m op res :
  (invoke m op).2 = Some res →
  ∃ v req r,
    (Do http_DefaultClient req).1 = Some r ∧
    (invoke m op).1
      = [call_Marshal v; call_Post req;
         call_ReadAll (resp_Body r); call_Close (resp_Body r)].
Proof.
  destruct (invoke_sendPost m op) as [params ->].
  rewrite sendPost_run. cbn zeta.
  destruct (Do http_DefaultClient _).1 as [r|] eqn:Hr; [|done].
  intros _. by eexists _, _, r.
Qed.

(** X6: a panicking operation has serialised and posted, and has neither
    read nor closed anything. *)
Theorem invoke_panicked_trace m op :
  (invoke m op).2 = None →
  ∃ v req, (invoke m op).1 = [call_Marshal v; call_Post req].
Proof.
  destruct (invoke_sendPost m op) as [params ->].
  rewrite sendPost_run. cbn zeta.
  destruct (Do http_DefaultClient _).1 as [r|]; [done|].
  intros _. by eexists _, _.
Qed.

(** ** More on the request objects *)

(** Whatever the order in which the entries are visited, the loop is the
    union of the visited entries, the last visited first, over the
    destination. *)
Lemma range_assign_in_union entries dst :
  range_assign_in entries dst = list_to_map (reverse entries) ∪ dst.
Proof.
  unfold range_assign_in. revert dst.
  induction entries as [|[key value] entries IH]; intros dst.
  - cbn. by rewrite (left_id_L ∅ (∪)).
  - rewrite reverse_cons, list_to_map_app. cbn [foldl]. rewrite IH.
    rewrite list_to_map_cons, list_to_map_nil, insert_empty.
    by rewrite <-(assoc_L (∪)), <-insert_union_singleton_l.
Qed.

(** X7: the merge of the custom properties does not depend on the order in
    which the runtime iterates over the map: visiting its entries in any
    order gives the result of [range_assign]. *)
Theorem range_assign_any_order entries (src dst : gmap string any) :
  entries ≡ₚ map_to_list src →
  range_assign_in entries dst = range_assign (Some src) dst.
Proof.
  intros Hperm.
  rewrite range_assign_in_union, range_assign_union. f_equal.
  etrans; [|apply list_to_map_to_list].
  apply list_to_map_proper.
  - rewrite reverse_Permutation, Hperm. apply NoDup_fst_map_to_list.
  - by rewrite reverse_Permutation.
Qed.

(** X8: [Alias] is [Track] of the event "$create_alias" with the new id as
    its one custom property "alias", no IP and no timestamp: the same calls
    and the same result. *)
Theorem Alias_is_Track m distinctId newId :
  Alias m distinctId newId
    = Track m distinctId "$create_alias"
        (Some (Event.mk "" nilTime (Some {[ "alias" := AString newId ]}))).
Proof.
  unfold Alias, Track. cbn zeta. by rewrite load_Some_bind.
Qed.

(** X9: the properties object [Track] submits is the custom properties, a
    nil map counting as empty, laid over the reserved keys; the reserved
    keys are "token" and "distinct_id", "ip" exactly when the IP is not
    empty, and "time" exactly when the timestamp is not nil. *)
Theorem Track_request m distinctId eventName e :
  ∃ reserved : gmap string any,
    marshalled (Track m distinctId eventName (Some e)).1
      = [ASlice [AMap (Some
           {[ "event" := AString eventName;
              "properties" :=
                AMap (Some (default ∅ (Event.Properties e) ∪ reserved)) ]})]] ∧
    dom reserved
      = {[ "token"; "distinct_id" ]}
          ∪ (if decide (Event.IP e ≠ "") then {[ "ip" ]} else ∅)
          ∪ match pointee (Event.Timestamp e) with
            | Some _ => {[ "time" ]}
            | None => ∅
            end ∧
    reserved !! "token" = Some (AString (Token m)) ∧
    reserved !! "distinct_id" = Some (AString distinctId) ∧
    reserved !! "ip"
      = (if decide (Event.IP e ≠ "") then Some (AString (Event.IP e))
         else None) ∧
    reserved !! "time" = AInt64 ∘ Unix <$> pointee (Event.Timestamp e).
Proof.
  unfold Track. cbn zeta. rewrite load_Some_bind, sendPost_marshalled.
  eexists. split.
  { destruct (Event.Properties e) as [custom|]; cbn [default].
    - by rewrite range_assign_union.
    - cbn [range_assign]. by rewrite (left_id_L ∅ (∪)). }
  destruct (pointee (Event.Timestamp e)); case_decide;
    (split; [|by simplify_map_eq]);
    rewrite ?dom_insert_L, dom_singleton_L;
    apply set_eq; intros k;
    rewrite ?elem_of_union, ?elem_of_singleton, ?elem_of_empty; tauto.
Qed.

(** X10: the request object [UpdateUser] submits has the keys "$token",
    "$distinct_id" and the operation, "$ip" when the IP is not empty, and
    "$ignore_time" or "$time" as the timestamp asks, and no others.  The
    operation key holds the properties and wins over any of the others it
    coincides with. *)
Theorem UpdateUser_request m distinctId u :
  ∃ params : gmap string any,
    marshalled (UpdateUser m distinctId (Some u)).1
      = [ASlice [AMap (Some params)]] ∧
    dom params
      = {[ "$token"; "$distinct_id"; Update.Operation u ]}
          ∪ (if decide (Update.IP u ≠ "") then {[ "$ip" ]} else ∅)
          ∪ match Update.Timestamp u with
            | IgnoreTime => {[ "$ignore_time" ]}
            | ptrTime _ => {[ "$time" ]}
            | nilTime => ∅
            end ∧
    params !! Update.Operation u = Some (AMap (Update.Properties u)) ∧
    (Update.Operation u ≠ "$token" →
     params !! "$token" = Some (AString (Token m))) ∧
    (Update.Operation u ≠ "$distinct_id" →
     params !! "$distinct_id" = Some (AString distinctId)) ∧
    (Update.Operation u ≠ "$ip" →
     params !! "$ip"
       = (if decide (Update.IP u ≠ "") then Some (AString (Update.IP u))
          else None)).
Proof.
  unfold UpdateUser. cbn zeta. rewrite load_Some_bind, sendPost_marshalled.
  eexists. split; [reflexivity|].
  destruct (Update.Timestamp u); case_decide;
    (split; [|split_and!; intros; by simplify_map_eq]);
    rewrite ?dom_insert_L, dom_singleton_L;
    apply set_eq; intros k;
    rewrite ?elem_of_union, ?elem_of_singleton, ?elem_of_empty; tauto.
Qed.

(** X11: [UnionUser] submits the request object [UpdateUser] submits for
    the same operation and properties with an empty IP and a nil timestamp;
    the two differ in the sub-path only. *)
Theorem UnionUser_is_bare_UpdateUser m userID u :
  let bare :=
    Update.mk "" nilTime (Update.Operation u) (Update.Properties u) in
  marshalled (UnionUser m userID (Some u)).1
    = marshalled (UpdateUser m userID (Some bare)).1 ∧
  req_Body <$> posted (UnionUser m userID (Some u)).1
    = req_Body <$> posted (UpdateUser m userID (Some bare)).1 ∧
  req_URL <$> posted (UnionUser m userID (Some u)).1
    = [ApiURL m +:+ "/engage#profile-union"] ∧
  req_URL <$> posted (UpdateUser m userID (Some bare)).1
    = [ApiURL m +:+ "/engage"].
Proof.
  unfold UnionUser, UpdateUser. cbn zeta. rewrite !load_Some_bind.
  by rewrite !sendPost_marshalled, !sendPost_posted.
Qed.

(** X12: the request object [UpdateGroup] submits has the keys "$token",
    "$group_id", "$group_key" and the operation, and no others; the
    operation key holds the properties and wins over the others; the IP and
    the timestamp of the update change nothing in the run. *)
Theorem UpdateGroup_request m groupKey groupId u :
  (∃ params : gmap string any,
     marshalled (UpdateGroup m groupKey groupId (Some u)).1
       = [ASlice [AMap (Some params)]] ∧
     dom params
       = {[ "$token"; "$group_id"; "$group_key"; Update.Operation u ]} ∧
     params !! Update.Operation u = Some (AMap (Update.Properties u)) ∧
     (Update.Operation u ≠ "$token" →
      params !! "$token" = Some (AString (Token m))) ∧
     (Update.Operation u ≠ "$group_id" →
      params !! "$group_id" = Some (AString groupId)) ∧
     (Update.Operation u ≠ "$group_key" →
      params !! "$group_key" = Some (AString groupKey))) ∧
  (∀ ip timestamp,
     UpdateGroup m groupKey groupId
       (Some (Update.mk ip timestamp
                (Update.Operation u) (Update.Properties u)))
     = UpdateGroup m groupKey groupId (Some u)).
Proof.
  split; [|done].
  unfold UpdateGroup. cbn zeta. rewrite load_Some_bind, sendPost_marshalled.
  eexists. split; [reflexivity|]. split_and!.
  - rewrite !dom_insert_L, dom_singleton_L.
    apply set_eq. intros k. rewrite !elem_of_union, !elem_of_singleton.
    tauto.
  - by simplify_map_eq.
  - intros. by simplify_map_eq.
  - intros. by simplify_map_eq.
  - intros. by simplify_map_eq.
Qed.

(** X13: [UnionGroup] serialises and posts what [UpdateGroup] does for the
    same arguments; only the URL differs, by the sub-path. *)
Theorem UnionGroup_is_UpdateGroup m groupKey groupId u :
  marshalled (UnionGroup m groupKey groupId (Some u)).1
    = marshalled (UpdateGroup m groupKey groupId (Some u)).1 ∧
  req_Body <$> posted (UnionGroup m groupKey groupId (Some u)).1
    = req_Body <$> posted (UpdateGroup m groupKey groupId (Some u)).1 ∧
  req_URL <$> posted (UnionGroup m groupKey groupId (Some u)).1
    = [ApiURL m +:+ "/groups#group-union"] ∧
  req_URL <$> posted (UpdateGroup m groupKey groupId (Some u)).1
    = [ApiURL m +:+ "/groups"].
Proof.
  unfold UnionGroup, UpdateGroup. cbn zeta. rewrite !load_Some_bind.
  by rewrite !sendPost_marshalled, !sendPost_posted.
Qed.

(** X14: a nil event or update makes the method panic on its first field
    access, before anything is serialised or sent. *)
Theorem nil_argument_panics m a b :
  Track m a b None = ([], None) ∧
  UpdateUser m a None = ([], None) ∧
  UnionUser m a None = ([], None) ∧
  UpdateGroup m a b None = ([], None) ∧
  UnionGroup m a b None = ([], None).
Proof. done. Qed.

(** X15: a client built by [NewFromClient] posts every operation to the URL
    it was given, or to the production endpoint when that URL is blank,
    followed by a slash and the sub-path; a client built by [New] behaves
    like it on every operation. *)
Theorem NewFromClient_endpoint c token apiURL op :
  req_URL <$> posted (invoke (NewFromClient c token apiURL) op).1
    = [(if decide (apiURL = "") then "https://api.mixpanel.com" else apiURL)
         +:+ "/" +:+ subPath op] ∧
  invoke (New token apiURL) op = invoke (NewFromClient c token apiURL) op.
Proof.
  split; [|by destruct op].
  destruct (invoke_sendPost (NewFromClient c token apiURL) op) as [? ->].
  by rewrite sendPost_posted.
Qed.

End Client.

(** ** The examples *)

Example json_reference_slice :
  json_reference (ASlice [AInt64 (-3); ABool true; AMap None])
    = ("[-3,true,null]", None).
Proof. reflexivity. Qed.

Example json_reference_chan :
  (json_reference (ASlice [AMap (Some {[ "ch" := AChan ]})])).2
    = Some (errorString "json: unsupported type: chan int").
Proof. reflexivity. Qed.

(** A blank URL stands for the production endpoint. *)
Example NewFromClient_blank_URL c token :
  ApiURL (NewFromClient c token "") = "https://api.mixpanel.com".
Proof. reflexivity. Qed.

(** [Alias] submits a "$create_alias" event to the track endpoint. *)
Example Alias_request :
  marshalled
    (Alias json_reference (client_replying 200 "1") sample_client
       "u1" "u2").1
    = [ASlice [AMap (Some
         {[ "event" := AString "$create_alias";
            "properties" := AMap (Some
              {[ "token" := AString "tok";
                 "distinct_id" := AString "u1";
                 "alias" := AString "u2" ]}) ]})]] ∧
  req_URL <$> posted
    (Alias json_reference (client_replying 200 "1") sample_client
       "u1" "u2").1
    = ["https://api.mixpanel.com/track"].
Proof. split; reflexivity. Qed.

(** A client built around an [http.Client] that would answer 1 still fails
    when the package-default client answers 0. *)
Example custom_Client_not_consulted :
  (invoke json_reference (client_replying 200 "0")
     (NewFromClient (Some (client_replying 200 "1")) "tok" "")
     (op_Alias "u1" "u2")).2
    = Some (Some (MixpanelError "https://api.mixpanel.com/track"
                    (ErrTrackFailed "response not 1"
                       (Some (mkResponse 200 (mkBody "0" None)))))).
Proof. reflexivity. Qed.

(** A nil event makes [Track] panic before anything is sent. *)
Example Track_nil_event :
  Track json_reference (client_replying 200 "1") sample_client
    "u1" "signup" None = ([], None).
Proof. reflexivity. Qed.

Lemma body_1_returns_nil_witness :
  delivers (client_replying 200 "1") (mkResponse 200 (mkBody "1" None)) ∧
  (invoke json_reference (client_replying 200 "1") sample_client
     (op_Track "u1" "signup" sample_event)).2 = Some None.
Proof.
  split; [done|].
  apply (body_1_returns_nil json_reference (client_replying 200 "1")
           sample_client (op_Track "u1" "signup" sample_event)
           (mkResponse 200 (mkBody "1" None))); [done | reflexivity].
Defined.

Lemma body_not_1_returns_error_witness :
  delivers (client_replying 200 "0") (mkResponse 200 (mkBody "0" None)) ∧
  ∃ inner,
    (invoke json_reference (client_replying 200 "0") sample_client
       (op_UnionGroup "company" "acme" sample_update)).2
      = Some (Some (MixpanelError
                      "https://api.mixpanel.com/groups#group-union" inner)) ∧
    inner = ErrTrackFailed "response not 1"
              (Some (mkResponse 200 (mkBody "0" None))) ∧
    contains (Error inner) "response not 1" ∧
    req_URL <$> posted
      (invoke json_reference (client_replying 200 "0") sample_client
         (op_UnionGroup "company" "acme" sample_update)).1
      = ["https://api.mixpanel.com/groups#group-union"].
Proof.
  split; [done|].
  apply (body_not_1_returns_error json_reference (client_replying 200 "0")
           sample_client (op_UnionGroup "company" "acme" sample_update)
           (mkResponse 200 (mkBody "0" None))); [done | discriminate].
Defined.

Lemma Track_custom_property_wins_witness :
  ∃ props reserved : gmap string any,
    marshalled
      (Track json_reference (client_replying 200 "1") sample_client
         "u1" "signup" (Some shadowing_event)).1
      = [ASlice [AMap (Some
           {[ "event" := AString "signup";
              "properties" := AMap (Some props) ]})]] ∧
    props = {[ "token" := AString "mine" ]} ∪ reserved ∧
    reserved !! "token" = Some (AString "tok") ∧
    reserved !! "distinct_id" = Some (AString "u1") ∧
    props !! "token" = Some (AString "mine").
Proof.
  apply (Track_custom_property_wins json_reference
           (client_replying 200 "1") sample_client "u1" "signup"
           shadowing_event {[ "token" := AString "mine" ]} "token"
           (AString "mine")); reflexivity.
Defined.

Lemma Track_time_is_epoch_seconds_witness :
  ∃ props : gmap string any,
    marshalled
      (Track json_reference (client_replying 200 "1") sample_client
         "u1" "signup" (Some sample_event)).1
      = [ASlice [AMap (Some
           {[ "event" := AString "signup";
              "properties" := AMap (Some props) ]})]] ∧
    props !! "time" = Some (AInt64 1700000000).
Proof.
  apply (Track_time_is_epoch_seconds json_reference
           (client_replying 200 "1") sample_client "u1" "signup"
           sample_event (mkTime 1700000000)); [reflexivity|].
  intros custom [= <-]. reflexivity.
Defined.

Lemma UpdateUser_time_fields_ok_witness :
  UpdateUser_time_fields json_reference (client_replying 200 "1")
    sample_client "u1" sample_update.
Proof.
  apply (UpdateUser_time_fields_ok json_reference (client_replying 200 "1")
           sample_client "u1" sample_update); discriminate.
Defined.

(** C6 as stated fails: with the [IgnoreTime] sentinel and an operation
    named "$time", the request object does have a "$time" field, the one
    the operation writes last. *)
Lemma UpdateUser_time_fields_counterexample :
  ¬ UpdateUser_time_fields json_reference (client_replying 200 "1")
      sample_client "u1" time_named_update.
Proof.
  intros (params & Htr & _ & Hnone). revert Htr.
  unfold UpdateUser. cbn zeta.
  rewrite load_Some_bind, sendPost_marshalled.
  intros [= <-]. by vm_compute in Hnone.
Qed.

(** C1, at a failing input: on a transport that refuses the connection,
    [Alias] serialises, posts, and then panics on the nil response; no
    error comes back. *)
Theorem transport_failure_panics :
  (Alias json_reference (client_failing "dial tcp: connection refused")
     sample_client "u1" "u2").2 = None ∧
  req_URL <$> posted
    (Alias json_reference (client_failing "dial tcp: connection refused")
       sample_client "u1" "u2").1
    = ["https://api.mixpanel.com/track"].
Proof. split; reflexivity. Qed.

(** C2, at a failing input: [Track] on an event with a channel among its
    properties gets an error from the serialiser, posts all the same, with
    an empty body, and, the server answering 1, returns the nil error. *)
Theorem Marshal_failure_is_dropped :
  (∃ v, marshalled
          (Track json_reference (client_replying 200 "1") sample_client
             "u1" "signup" (Some chan_event)).1 = [v] ∧
        json_reference v
          = ("", Some (errorString "json: unsupported type: chan int"))) ∧
  posted
    (Track json_reference (client_replying 200 "1") sample_client
       "u1" "signup" (Some chan_event)).1
    = [mkRequest "POST" "https://api.mixpanel.com/track"
         "application/json" ""] ∧
  (Track json_reference (client_replying 200 "1") sample_client
     "u1" "signup" (Some chan_event)).2 = Some None.
Proof. split_and!; [eexists; split|..]; reflexivity. Qed.

(** C9, at a failing input: the body [UpdateUser] posts for an update that
    cannot be serialised is empty, not a JSON array of one element. *)
Theorem envelope_lost_on_Marshal_failure :
  (json_reference
     (ASlice [AMap (Some
        {[ "$token" := AString "tok";
           "$distinct_id" := AString "u1";
           "$set" := AMap (Some {[ "ch" := AChan ]}) ]})])).2
    = Some (errorString "json: unsupported type: chan int") ∧
  req_Body <$> posted
    (UpdateUser json_reference (client_replying 200 "1") sample_client
       "u1" (Some chan_update)).1 = [""].
Proof. split; reflexivity. Qed.

Lemma invoke_error_shape_witness :
  ∃ r,
    MixpanelError "https://api.mixpanel.com/engage"
      (ErrTrackFailed "response not 1"
         (Some (mkResponse 503 (mkBody "Service Unavailable" None))))
    = MixpanelError "https://api.mixpanel.com/engage"
        (ErrTrackFailed "response not 1" (Some r)) ∧
    rc_data (resp_Body r) ≠ "1" ∧
    Cause
      (MixpanelError "https://api.mixpanel.com/engage"
         (ErrTrackFailed "response not 1"
            (Some (mkResponse 503 (mkBody "Service Unavailable" None)))))
    = Some (ErrTrackFailed "response not 1" (Some r)) ∧
    Error
      (MixpanelError "https://api.mixpanel.com/engage"
         (ErrTrackFailed "response not 1"
            (Some (mkResponse 503 (mkBody "Service Unavailable" None)))))
    = "mixpanel: Mixpanel did not return 1 when tracking: response not 1".
Proof.
  apply (invoke_error_shape json_reference
           (client_replying 503 "Service Unavailable") sample_client
           (op_UpdateUser "u1" sample_update)).
  reflexivity.
Defined.

Lemma invoke_returned_closes_body_witness :
  ∃ v req r,
    (Do (client_replying 200 "1") req).1 = Some r ∧
    (invoke json_reference (client_replying 200 "1") sample_client
       (op_Track "u1" "signup" sample_event)).1
      = [call_Marshal v; call_Post req;
         call_ReadAll (resp_Body r); call_Close (resp_Body r)].
Proof.
  apply (invoke_returned_closes_body json_reference
           (client_replying 200 "1") sample_client
           (op_Track "u1" "signup" sample_event) None).
  reflexivity.
Defined.

Lemma invoke_panicked_trace_witness :
  ∃ v req,
    (invoke json_reference (client_failing "dial tcp: connection refused")
       sample_client (op_UnionUser "u1" sample_update)).1
      = [call_Marshal v; call_Post req].
Proof.
  apply (invoke_panicked_trace json_reference
           (client_failing "dial tcp: connection refused") sample_client
           (op_UnionUser "u1" sample_update)).
  reflexivity.
Defined.

Lemma range_assign_any_order_witness :
  range_assign_in
    [("plan", AString "pro"); ("seats", AInt64 5)]
    {[ "token" := AString "tok"; "plan" := AString "free" ]}
  = range_assign
      (Some {[ "plan" := AString "pro"; "seats" := AInt64 5 ]})
      {[ "token" := AString "tok"; "plan" := AString "free" ]}.
Proof.
  apply (range_assign_any_order
           [("plan", AString "pro"); ("seats", AInt64 5)]
           {[ "plan" := AString "pro"; "seats" := AInt64 5 ]}).
  vm_compute. apply perm_swap.
Defined.
